(** * A generic finite state machine (fsm.cpp)

    Shallow embedding of the class template [fsm<State, Input>] and of the
    engines built by its test cases, followed by the properties of its
    public member functions.

    The containers are the ones of the source: [std::set<State>] is a
    [gset State], [std::map<StateInputPair, LastStateCallbackPair>] is a
    [gmap (State * Input) (State * FuncPtr)].  Member functions thread the
    object through a small state monad that also records what the call does
    to the outside world: taking and releasing [mutex_], writing to
    [std::cout], and calling through a function pointer. *)

From Stdlib Require Import Ascii String.
From stdpp Require Import gmap strings list fin_maps.

(** ** The class template *)

Section fsm_class.
Context {State Input FuncPtr : Type}.
Context `{Countable State, Countable Input}.

(** The data members of [fsm].  [FuncPtr] is the type of the functions a
    caller can pass (pointers to functions taking and returning
    nothing); [fallBackFunction] is not initialised
    by the constructor, which [None] stands for. *)
Record fsm : Type := mkFsm {
  sd : gmap (State * Input) (State * FuncPtr);
  listOfStates : gset State;
  currentState : State;
  fallBackFunction : option FuncPtr
}.

(** What a member function does besides updating the object.  A call
    through a function pointer records the object as it is at the moment
    of the call: that is what the callee finds if it looks at the machine
    (for instance through [GetState]). *)
Inductive event : Type :=
| EvLock
| EvUnlock
| EvCout (s : State)
| EvCall (f : FuncPtr) (seen : fsm).

(** A member function either returns, with the updated object and the
    events in order, or calls through the pointer that was never set. *)
Inductive outcome (A : Type) : Type :=
| Done (a : A) (e : fsm) (tr : list event)
| Fault (tr : list event).
Global Arguments Done {A} a e tr.
Global Arguments Fault {A} tr.

Definition M (A : Type) : Type := fsm → outcome A.

Global Instance M_ret : MRet M := λ A a e, Done a e [].
Global Instance M_bind : MBind M := λ A B k m e,
  match m e with
  | Done a e1 tr1 =>
      match k a e1 with
      | Done b e2 tr2 => Done b e2 (tr1 ++ tr2)
      | Fault tr2 => Fault (tr1 ++ tr2)
      end
  | Fault tr1 => Fault tr1
  end.

Definition emit (ev : event) : M unit := λ e, Done () e [ev].
Definition gets {A : Type} (f : fsm → A) : M A := λ e, Done (f e) e [].
Definition modify (f : fsm → fsm) : M unit := λ e, Done () (f e) [].

Definition set_sd (m : gmap (State * Input) (State * FuncPtr)) (e : fsm) : fsm :=
  mkFsm m (listOfStates e) (currentState e) (fallBackFunction e).
Definition set_listOfStates (l : gset State) (e : fsm) : fsm :=
  mkFsm (sd e) l (currentState e) (fallBackFunction e).
Definition set_currentState (s : State) (e : fsm) : fsm :=
  mkFsm (sd e) (listOfStates e) s (fallBackFunction e).
Definition set_fallBackFunction (fb : FuncPtr) (e : fsm) : fsm :=
  mkFsm (sd e) (listOfStates e) (currentState e) (Some fb).

(** [mutex_.lock()] and [mutex_.unlock()]. *)
Definition lock : M unit := emit EvLock.
Definition unlock : M unit := emit EvUnlock.

(** The failure message written to [std::cout], which names the state
    [s] that is not in the state list. *)
Definition cout_failure (s : State) : M unit := emit (EvCout s).

(** [f()], for a pointer [f] that holds a function. *)
Definition call (f : FuncPtr) : M unit := λ e, Done () e [EvCall f e].

(** [fallBackFunction()]. *)
Definition call_fallBackFunction : M unit := λ e,
  match fallBackFunction e with
  | Some fb => call fb e
  | None => Fault []
  end.

(** [std::map::insert]: the pair is added only when the map has no element
    with that key; otherwise the map is left as it is. *)
Definition map_insert (k : State * Input) (v : State * FuncPtr)
    (m : gmap (State * Input) (State * FuncPtr))
    : gmap (State * Input) (State * FuncPtr) :=
  match m !! k with
  | Some _ => m
  | None => <[k:=v]> m
  end.

(** The constructor [fsm(){}]: empty containers; [currentState] is
    default-initialised to some [s0] and the fallback pointer is left
    unset. *)
Definition fsm_new (s0 : State) : fsm := mkFsm ∅ ∅ s0 None.

Definition AddState (s : State) : M unit :=
  lock ;;
  l ← gets listOfStates;
  (if decide (s ∉ l) then modify (set_listOfStates ({[s]} ∪ l)) else mret ()) ;;
  unlock.

Definition SetFallback (fb : FuncPtr) : M unit :=
  lock ;;
  modify (set_fallBackFunction fb) ;;
  unlock.

Definition AddTransition (s1 s2 : State) (inp : Input) (cb : FuncPtr) : M unit :=
  lock ;;
  l ← gets listOfStates;
  (if decide (s1 ∉ l) then
     cout_failure s1 ;;
     call_fallBackFunction
   else if decide (s2 ∉ l) then
     cout_failure s2 ;;
     call_fallBackFunction
   else
     let _tmp_si := (s1, inp) in
     let _tmp_sc := (s2, cb) in
     m ← gets sd;
     modify (set_sd (map_insert _tmp_si _tmp_sc m))) ;;
  unlock.

Definition ResetMachine (s : State) : M unit :=
  lock ;;
  l ← gets listOfStates;
  (if decide (s ∉ l) then
     cout_failure s ;;
     call_fallBackFunction
   else
     modify (set_currentState s)) ;;
  unlock.

(** [GetState] has no [mutex_.lock()] and no [mutex_.unlock()]: it only
    returns [currentState]. *)
Definition GetState : M State := gets currentState.

Definition Step (inp : Input) : M unit :=
  lock ;;
  cur ← gets currentState;
  let _pair := (cur, inp) in
  m ← gets sd;
  match m !! _pair with
  | None => call_fallBackFunction
  | Some it =>
      modify (set_currentState it.1) ;;
      call it.2
  end ;;
  unlock.

(** A caller's request, and a program as a sequence of requests. *)
Inductive op : Type :=
| OpAddState (s : State)
| OpSetFallback (fb : FuncPtr)
| OpAddTransition (s1 s2 : State) (inp : Input) (cb : FuncPtr)
| OpResetMachine (s : State)
| OpGetState
| OpStep (inp : Input).

Definition run_op (o : op) : M unit :=
  match o with
  | OpAddState s => AddState s
  | OpSetFallback fb => SetFallback fb
  | OpAddTransition s1 s2 inp cb => AddTransition s1 s2 inp cb
  | OpResetMachine s => ResetMachine s
  | OpGetState => GetState ;; mret ()
  | OpStep inp => Step inp
  end.

Fixpoint run_ops (os : list op) : M unit :=
  match os with
  | [] => mret ()
  | o :: os' => run_op o ;; run_ops os'
  end.

(** The function pointers called during a run, in order. *)
Fixpoint calls (tr : list event) : list FuncPtr :=
  match tr with
  | [] => []
  | EvCall f _ :: tr' => f :: calls tr'
  | _ :: tr' => calls tr'
  end.

(** A run is made under the mutex when it starts by taking it, ends by
    releasing it, and does neither in between. *)
Definition is_lock_event (ev : event) : bool :=
  match ev with
  | EvLock | EvUnlock => true
  | _ => false
  end.

Fixpoint ends_with_unlock (tr : list event) : bool :=
  match tr with
  | [] => false
  | [EvUnlock] => true
  | ev :: tr' => negb (is_lock_event ev) && ends_with_unlock tr'
  end.

Definition under_mutex (tr : list event) : bool :=
  match tr with
  | EvLock :: tr' => ends_with_unlock tr'
  | _ => false
  end.

(** Every destination in the table is a registered state. *)
Definition destinations_registered (e : fsm) : Prop :=
  ∀ k s' cb, sd e !! k = Some (s', cb) → s' ∈ listOfStates e.

End fsm_class.

Global Arguments fsm : clear implicits.
Global Arguments fsm _ _ _ {_ _ _ _}.
Global Arguments event : clear implicits.
Global Arguments event _ _ _ {_ _ _ _}.
Global Arguments op : clear implicits.

(** ** Reading a run *)

Section fsm_reading.
Context {State Input FuncPtr : Type}.
Context `{Countable State, Countable Input}.

(** Whether a request made on [e] takes a branch that ends in
    [fallBackFunction()]: an [AddTransition] with an endpoint outside the
    state list, a [ResetMachine] to a state outside it, a [Step] whose key
    has no entry. *)
Definition wants_fallback (o : op State Input FuncPtr)
    (e : fsm State Input FuncPtr) : bool :=
  match o with
  | OpAddTransition s1 s2 _ _ =>
      bool_decide (s1 ∉ listOfStates e ∨ s2 ∉ listOfStates e)
  | OpResetMachine s => bool_decide (s ∉ listOfStates e)
  | OpStep inp =>
      match sd e !! (currentState e, inp) with
      | None => true
      | Some _ => false
      end
  | _ => false
  end.

(** The functions a request made on [e] is to call: the fallback when it
    wants it, the callback of the entry for a [Step] that finds one, and
    nothing otherwise. *)
Definition called (o : op State Input FuncPtr)
    (e : fsm State Input FuncPtr) : list FuncPtr :=
  if wants_fallback o e then option_list (fallBackFunction e)
  else
    match o with
    | OpStep inp =>
        match sd e !! (currentState e, inp) with
        | Some it => [it.2]
        | None => []
        end
    | _ => []
    end.

(** The mutex along a run: [held] says whether it is taken before the
    first event.  It is never taken while held nor released while free,
    output and calls happen only while it is held, and it is free at the
    end. *)
Fixpoint mutex_discipline (held : bool)
    (tr : list (event State Input FuncPtr)) : bool :=
  match tr with
  | [] => negb held
  | EvLock :: tr' => negb held && mutex_discipline true tr'
  | EvUnlock :: tr' => held && mutex_discipline false tr'
  | _ :: tr' => held && mutex_discipline true tr'
  end.

(** The table read as a transition function: where the machine goes from
    [cur] on [inp], and which function runs, when [fb] is the fallback. *)
Definition next_state (e : fsm State Input FuncPtr)
    (cur : State) (inp : Input) : State :=
  match sd e !! (cur, inp) with
  | Some it => it.1
  | None => cur
  end.

Definition next_call (e : fsm State Input FuncPtr) (fb : FuncPtr)
    (cur : State) (inp : Input) : FuncPtr :=
  match sd e !! (cur, inp) with
  | Some it => it.2
  | None => fb
  end.

Fixpoint walk (e : fsm State Input FuncPtr)
    (cur : State) (inps : list Input) : State :=
  match inps with
  | [] => cur
  | inp :: inps' => walk e (next_state e cur inp) inps'
  end.

Fixpoint walk_calls (e : fsm State Input FuncPtr) (fb : FuncPtr)
    (cur : State) (inps : list Input) : list FuncPtr :=
  match inps with
  | [] => []
  | inp :: inps' =>
      next_call e fb cur inp :: walk_calls e fb (next_state e cur inp) inps'
  end.

(** Both ends of every entry of the table are in the state list. *)
Definition endpoints_registered (e : fsm State Input FuncPtr) : Prop :=
  ∀ s inp s' cb,
    sd e !! (s, inp) = Some (s', cb) →
    s ∈ listOfStates e ∧ s' ∈ listOfStates e.

(** The example usage of the README, on an object [fsm]; the two values
    returned are the ones its two [assert]s compare with [b] and [c]. *)
Definition readme_example (a b c : State) (input1 input2 : Input)
    (callback1 callback2 : FuncPtr)
    : fsm State Input FuncPtr → outcome (State * State) :=
  AddState a ;;
  AddState b ;;
  AddTransition a b input1 callback1 ;;
  ResetMachine a ;;
  Step input1 ;;
  g1 ← GetState;
  AddState c ;;
  AddTransition b c input2 callback2 ;;
  Step input2 ;;
  g2 ← GetState;
  mret (g1, g2).

End fsm_reading.

(** ** The engines of the test cases

    [testCase1] and [testCase3] instantiate the template with
    [std::string] states and [char] inputs, and pass the three functions
    [callback1], [callback2] and [fallback]. *)

Module TestCases.

Inductive fn : Type := callback1 | callback2 | fallback.

Definition s1 : string := "s1".
Definition s2 : string := "s2".
Definition s3 : string := "s3".
Definition inp1 : ascii := "i"%char.
Definition inp2 : ascii := "j"%char.
Definition inp3 : ascii := "k"%char.

(** The calls of [testCase1] up to and including [ResetMachine(s1)]. *)
Definition setup1 : list (op string ascii fn) :=
  [ OpSetFallback fallback;
    OpAddState s1; OpAddState s2; OpAddState s3;
    OpAddTransition s1 s2 inp1 callback1;
    OpAddTransition s2 s3 inp2 callback2;
    OpResetMachine s1 ].

(** The object those calls leave behind. *)
Definition engine1 : fsm string ascii fn :=
  mkFsm {[ (s1, inp1) := (s2, callback1); (s2, inp2) := (s3, callback2) ]}
        {[ s1; s2; s3 ]} s1 (Some fallback).

(** The calls of [testCase3] up to and including [ResetMachine(s1)]: the
    state [s3] is never added. *)
Definition setup3 : list (op string ascii fn) :=
  [ OpSetFallback fallback;
    OpAddState s1; OpAddState s2;
    OpAddTransition s1 s2 inp1 callback1;
    OpAddTransition s2 s3 inp2 callback2;
    OpResetMachine s1 ].

Definition engine3 : fsm string ascii fn :=
  mkFsm {[ (s1, inp1) := (s2, callback1) ]} {[ s1; s2 ]} s1 (Some fallback).

End TestCases.

(** ** The test programs

    [myAssert] and the three test cases.  What a test case writes to
    [std::cout] itself is its result, one element per line; what the
    machine does meanwhile is in the events of the run. *)

Module TestPrograms.
Import TestCases.

Inductive cout_item : Type :=
| CoutStr (s : string)
| CoutInt (n : Z).

Definition cout_line : Type := list cout_item.

Definition myAssert {T : Type} `{EqDecision T} (left right : T)
    (successMessage failureMessage : string) (line : Z) (fileName : string)
    : list cout_line :=
  if decide (left = right) then
    [[CoutStr successMessage]]
  else
    [[CoutStr failureMessage];
     [CoutStr "fileName: "; CoutStr fileName];
     [CoutStr "line: "; CoutInt line]].

(** [testCase1]: [std::string] states and [char] inputs.  [fileName] is
    the value of [__FILE__]; the line numbers are the ones of [__LINE__]
    in fsm.cpp. *)
Definition testCase1_body (fileName : string)
    : fsm string ascii fn → outcome (list cout_line) :=
  SetFallback fallback ;;
  AddState s1 ;;
  AddState s2 ;;
  AddState s3 ;;
  AddTransition s1 s2 inp1 callback1 ;;
  AddTransition s2 s3 inp2 callback2 ;;
  ResetMachine s1 ;;
  g1 ← GetState;
  Step inp1 ;;
  g2 ← GetState;
  Step inp2 ;;
  g3 ← GetState;
  Step inp2 ;;
  g4 ← GetState;
  ResetMachine s2 ;;
  g5 ← GetState;
  mret ([[CoutStr " Test Case 1 starts  "]]
        ++ myAssert g1 s1 " TEST_SUITE_COMMAND: SUCCESS" "FAILURE message"
             276%Z fileName
        ++ myAssert g2 s2
             " TEST_SUITE_COMMAND: SUCCESS, callback 1 function should be called, check manually"
             "FAILURE message, current state is not correct" 279%Z fileName
        ++ myAssert g3 s3
             " TEST_SUITE_COMMAND: SUCCESS, callback 2 function should be called, check manually"
             "FAILURE message, current state is not correct" 282%Z fileName
        ++ myAssert g4 s3
             " TEST_SUITE_COMMAND: SUCCESS, fallback function should be called, check manually"
             "FAILURE message, current state is not correct" 285%Z fileName
        ++ myAssert g5 s2 " TEST_SUITE_COMMAND: SUCCESS"
             "FAILURE message, current state is not correct" 288%Z fileName
        ++ [[CoutStr " Test Case 1 ends  "]]).

(** The local [fsmInstance] of [testCase1] starts with the empty string
    as current state. *)
Definition testCase1 (fileName : string) : outcome (list cout_line) :=
  testCase1_body fileName (fsm_new "").

(** [testCase2]: states are pointers to [StateClass], here addresses, and
    inputs are [int].  The three pointers [s1], [s2], [s3] are declared
    and never assigned, and so is the current state of the new object:
    the values they happen to hold are the parameters [p1], [p2], [p3]
    and [p0]. *)
Definition testCase2_body (p1 p2 p3 : N) (fileName : string)
    : fsm N Z fn → outcome (list cout_line) :=
  let inp1 : Z := 4%Z in
  let inp2 : Z := 5%Z in
  SetFallback fallback ;;
  AddState p1 ;;
  AddState p2 ;;
  AddState p3 ;;
  AddTransition p1 p2 inp1 callback1 ;;
  AddTransition p2 p3 inp2 callback2 ;;
  ResetMachine p1 ;;
  g1 ← GetState;
  Step inp1 ;;
  g2 ← GetState;
  Step inp2 ;;
  g3 ← GetState;
  Step inp2 ;;
  g4 ← GetState;
  ResetMachine p2 ;;
  g5 ← GetState;
  mret ([[]; [CoutStr " Test Case 2 starts  "]; []]
        ++ myAssert g1 p1 "SUCCESS" "FAILURE message" 330%Z fileName
        ++ myAssert g2 p2
             "SUCCESS, callback 1 function must be called, check manually"
             "FAILURE message, current state is not correct" 333%Z fileName
        ++ myAssert g3 p3
             "SUCCESS, callback 2 function must be called, check manually"
             "FAILURE message, current state is not correct" 336%Z fileName
        ++ myAssert g4 p3
             "SUCCESS, fallback function must be called, check manually"
             "FAILURE message, current state is not correct" 339%Z fileName
        ++ myAssert g5 p2 " TEST_SUITE_COMMAND: SUCCESS"
             "FAILURE message, current state is not correct" 342%Z fileName
        ++ [[]; [CoutStr " Test Case 2 ends  "]; []]).

Definition testCase2 (p0 p1 p2 p3 : N) (fileName : string)
    : outcome (list cout_line) :=
  testCase2_body p1 p2 p3 fileName (fsm_new p0).

(** [testCase3]: as [testCase1], but [s3] is never added. *)
Definition testCase3_body (fileName : string)
    : fsm string ascii fn → outcome (list cout_line) :=
  SetFallback fallback ;;
  AddState s1 ;;
  AddState s2 ;;
  AddTransition s1 s2 inp1 callback1 ;;
  AddTransition s2 s3 inp2 callback2 ;;
  ResetMachine s1 ;;
  g1 ← GetState;
  ResetMachine s3 ;;
  Step inp1 ;;
  g2 ← GetState;
  Step inp2 ;;
  g3 ← GetState;
  mret ([[]; [CoutStr " Test Case 3 starts  "]; []]
        ++ [[CoutStr " TEST_SUITE_COMMAND: s3 is not a defined state, sytem should give an error, fallback function should be called,  check manually  "]]
        ++ myAssert g1 s1 "SUCCESS" "FAILURE message" 387%Z fileName
        ++ [[CoutStr " TEST_SUITE_COMMAND: s3 is not a defined state, sytem should give an error, fallback function should be called,  check manually  "]]
        ++ myAssert g2 s2
             " TEST_SUITE_COMMAND: SUCCESS, callback 1 function should be called, check manually"
             "FAILURE message, current state is not correct" 393%Z fileName
        ++ myAssert g3 s2
             " TEST_SUITE_COMMAND: SUCCESS, fallback function should be called, check manually"
             "FAILURE message, current state is not correct" 396%Z fileName
        ++ [[]; [CoutStr " Test Case 3 ends  "]; []]).

Definition testCase3 (fileName : string) : outcome (list cout_line) :=
  testCase3_body fileName (fsm_new "").

End TestPrograms.

(** ** Properties of the member functions *)

Section fsm_facts.
Context {State Input FuncPtr : Type}.
Context `{Countable State, Countable Input}.
Implicit Types (e : fsm State Input FuncPtr) (s : State) (inp : Input).
Implicit Types (cb fb : FuncPtr) (tr : list (event State Input FuncPtr)).

Ltac run_fsm :=
  unfold AddState, SetFallback, AddTransition, ResetMachine, GetState, Step,
    call_fallBackFunction, cout_failure, lock, unlock, call, emit, gets,
    modify, mbind, M_bind, mret, M_ret in *;
  simpl in *.

(** *** What each member function computes *)

Lemma AddState_fresh e s :
  s ∉ listOfStates e →
  AddState s e
  = Done () (set_listOfStates ({[s]} ∪ listOfStates e) e) [EvLock; EvUnlock].
Proof. intros Hs. run_fsm. by rewrite decide_True. Qed.

Lemma AddState_known e s :
  s ∈ listOfStates e → AddState s e = Done () e [EvLock; EvUnlock].
Proof. intros Hs. run_fsm. rewrite decide_False; [done | tauto]. Qed.

Lemma SetFallback_eq e fb :
  SetFallback fb e = Done () (set_fallBackFunction fb e) [EvLock; EvUnlock].
Proof. done. Qed.

Lemma AddTransition_valid e s1 s2 inp cb :
  s1 ∈ listOfStates e → s2 ∈ listOfStates e →
  AddTransition s1 s2 inp cb e
  = Done () (set_sd (map_insert (s1, inp) (s2, cb) (sd e)) e) [EvLock; EvUnlock].
Proof.
  intros H1 H2. run_fsm.
  rewrite decide_False by tauto. by rewrite decide_False by tauto.
Qed.

Lemma AddTransition_bad_source e s1 s2 inp cb :
  s1 ∉ listOfStates e →
  AddTransition s1 s2 inp cb e
  = match fallBackFunction e with
    | Some fb => Done () e [EvLock; EvCout s1; EvCall fb e; EvUnlock]
    | None => Fault [EvLock; EvCout s1]
    end.
Proof. intros H1. run_fsm. rewrite decide_True by done. by destruct (fallBackFunction e). Qed.

Lemma AddTransition_bad_destination e s1 s2 inp cb :
  s1 ∈ listOfStates e → s2 ∉ listOfStates e →
  AddTransition s1 s2 inp cb e
  = match fallBackFunction e with
    | Some fb => Done () e [EvLock; EvCout s2; EvCall fb e; EvUnlock]
    | None => Fault [EvLock; EvCout s2]
    end.
Proof.
  intros H1 H2. run_fsm. rewrite decide_False by tauto.
  rewrite decide_True by done. by destruct (fallBackFunction e).
Qed.

Lemma ResetMachine_valid e s :
  s ∈ listOfStates e →
  ResetMachine s e = Done () (set_currentState s e) [EvLock; EvUnlock].
Proof. intros Hs. run_fsm. by rewrite decide_False by tauto. Qed.

Lemma ResetMachine_invalid e s :
  s ∉ listOfStates e →
  ResetMachine s e
  = match fallBackFunction e with
    | Some fb => Done () e [EvLock; EvCout s; EvCall fb e; EvUnlock]
    | None => Fault [EvLock; EvCout s]
    end.
Proof. intros Hs. run_fsm. rewrite decide_True by done. by destruct (fallBackFunction e). Qed.

Lemma Step_found e inp s' cb :
  sd e !! (currentState e, inp) = Some (s', cb) →
  Step inp e
  = Done () (set_currentState s' e)
      [EvLock; EvCall cb (set_currentState s' e); EvUnlock].
Proof. intros Hit. run_fsm. by rewrite Hit. Qed.

Lemma Step_not_found e inp :
  sd e !! (currentState e, inp) = None →
  Step inp e
  = match fallBackFunction e with
    | Some fb => Done () e [EvLock; EvCall fb e; EvUnlock]
    | None => Fault [EvLock]
    end.
Proof. intros Hit. run_fsm. rewrite Hit. by destruct (fallBackFunction e). Qed.

(** *** Containers only grow, and table destinations stay registered *)

Lemma map_insert_subseteq (k : State * Input) (v : State * FuncPtr)
    (m : gmap (State * Input) (State * FuncPtr)) :
  m ⊆ map_insert k v m.
Proof.
  unfold map_insert. destruct (m !! k) eqn:Hk; [done |].
  by apply insert_subseteq.
Qed.

Lemma map_insert_lookup (k k' : State * Input) (v v' : State * FuncPtr)
    (m : gmap (State * Input) (State * FuncPtr)) :
  map_insert k v m !! k' = Some v' → m !! k' = Some v' ∨ v' = v.
Proof.
  unfold map_insert. destruct (m !! k) eqn:Hk; [by left |].
  rewrite lookup_insert. case_decide; naive_solver.
Qed.

(** One request: the set of states and the table only grow, registered
    destinations and a registered current state are kept. *)
Lemma run_op_grows o e e' tr :
  run_op o e = Done () e' tr →
  listOfStates e ⊆ listOfStates e' ∧ sd e ⊆ sd e'.
Proof.
  destruct o as [s | fb | s1 s2 inp cb | s | | inp]; simpl; intros Hrun.
  - destruct (decide (s ∈ listOfStates e)) as [Hs | Hs].
    + rewrite AddState_known in Hrun by done. by simplify_eq.
    + rewrite AddState_fresh in Hrun by done. simplify_eq. simpl.
      split; [set_solver | done].
  - rewrite SetFallback_eq in Hrun. by simplify_eq.
  - destruct (decide (s1 ∈ listOfStates e)) as [H1 | H1];
      [destruct (decide (s2 ∈ listOfStates e)) as [H2 | H2] |].
    + rewrite AddTransition_valid in Hrun by done. simplify_eq. simpl.
      split; [done | apply map_insert_subseteq].
    + rewrite AddTransition_bad_destination in Hrun by done.
      destruct (fallBackFunction e); by simplify_eq.
    + rewrite AddTransition_bad_source in Hrun by done.
      destruct (fallBackFunction e); by simplify_eq.
  - destruct (decide (s ∈ listOfStates e)) as [Hs | Hs].
    + rewrite ResetMachine_valid in Hrun by done. by simplify_eq.
    + rewrite ResetMachine_invalid in Hrun by done.
      destruct (fallBackFunction e); by simplify_eq.
  - run_fsm. by simplify_eq.
  - destruct (sd e !! (currentState e, inp)) as [[s' cb] |] eqn:Hit.
    + rewrite (Step_found _ _ _ _ Hit) in Hrun. by simplify_eq.
    + rewrite (Step_not_found _ _ Hit) in Hrun.
      destruct (fallBackFunction e); by simplify_eq.
Qed.

Lemma run_op_keeps_registered o e e' tr :
  run_op o e = Done () e' tr →
  destinations_registered e →
  destinations_registered e'
  ∧ (currentState e ∈ listOfStates e → currentState e' ∈ listOfStates e').
Proof.
  destruct o as [s | fb | s1 s2 inp cb | s | | inp]; simpl; intros Hrun Hdst.
  - destruct (decide (s ∈ listOfStates e)) as [Hs | Hs].
    + rewrite AddState_known in Hrun by done. by simplify_eq.
    + rewrite AddState_fresh in Hrun by done. simplify_eq.
      split; [| simpl; set_solver].
      intros k s' cb Hk. simpl in *. apply Hdst in Hk. set_solver.
  - rewrite SetFallback_eq in Hrun. by simplify_eq.
  - destruct (decide (s1 ∈ listOfStates e)) as [H1 | H1];
      [destruct (decide (s2 ∈ listOfStates e)) as [H2 | H2] |].
    + rewrite AddTransition_valid in Hrun by done. simplify_eq.
      split; [| done].
      intros k s' cb' Hk. simpl in *.
      apply map_insert_lookup in Hk as [Hk | Hk]; [by eapply Hdst |].
      by simplify_eq.
    + rewrite AddTransition_bad_destination in Hrun by done.
      destruct (fallBackFunction e); by simplify_eq.
    + rewrite AddTransition_bad_source in Hrun by done.
      destruct (fallBackFunction e); by simplify_eq.
  - destruct (decide (s ∈ listOfStates e)) as [Hs | Hs].
    + rewrite ResetMachine_valid in Hrun by done. by simplify_eq.
    + rewrite ResetMachine_invalid in Hrun by done.
      destruct (fallBackFunction e); by simplify_eq.
  - run_fsm. by simplify_eq.
  - destruct (sd e !! (currentState e, inp)) as [[s' cb] |] eqn:Hit.
    + rewrite (Step_found _ _ _ _ Hit) in Hrun. simplify_eq.
      split; [done |]. intros _. simpl. by eapply Hdst.
    + rewrite (Step_not_found _ _ Hit) in Hrun.
      destruct (fallBackFunction e); by simplify_eq.
Qed.

(** A sequence of requests that returns splits at its first request. *)
Lemma run_ops_cons o os e e' tr :
  run_ops (o :: os) e = Done () e' tr →
  ∃ e1 tr1 tr2,
    run_op o e = Done () e1 tr1 ∧ run_ops os e1 = Done () e' tr2
    ∧ tr = tr1 ++ tr2.
Proof.
  simpl. unfold mbind, M_bind at 1.
  destruct (run_op o e) as [[] e1 tr1 | tr1]; [| done].
  destruct (run_ops os e1) as [[] e2 tr2 | tr2] eqn:Hos; [| done].
  intros; simplify_eq. by exists e1, tr1, tr2.
Qed.

Lemma run_ops_keeps_registered os e e' tr :
  run_ops os e = Done () e' tr →
  destinations_registered e →
  destinations_registered e'
  ∧ (currentState e ∈ listOfStates e → currentState e' ∈ listOfStates e').
Proof.
  revert e tr. induction os as [| o os IH]; intros e tr Hrun Hdst.
  - simpl in Hrun. unfold mret, M_ret in Hrun. simplify_eq. auto.
  - apply run_ops_cons in Hrun as (e1 & tr1 & tr2 & Ho & Hos & _).
    destruct (run_op_keeps_registered _ _ _ _ Ho Hdst) as [Hdst1 Hcur1].
    destruct (IH _ _ Hos Hdst1) as [Hdst' Hcur']. auto.
Qed.

Lemma fsm_new_destinations_registered (s0 : State) :
  destinations_registered (fsm_new (Input:=Input) (FuncPtr:=FuncPtr) s0).
Proof. intros k s' cb Hk. simpl in Hk. by rewrite lookup_empty in Hk. Qed.

Lemma run_ops_grows os e e' tr :
  run_ops os e = Done () e' tr →
  listOfStates e ⊆ listOfStates e' ∧ sd e ⊆ sd e'.
Proof.
  revert e tr. induction os as [| o os IH]; intros e tr Hrun.
  - simpl in Hrun. unfold mret, M_ret in Hrun. by simplify_eq.
  - apply run_ops_cons in Hrun as (e1 & tr1 & tr2 & Ho & Hos & _).
    apply run_op_grows in Ho as [Hl1 Hsd1].
    apply IH in Hos as [Hl2 Hsd2].
    split; by etrans.
Qed.

(** Once a fallback is set, no request can fail, and a fallback stays set. *)
Lemma run_op_total o e fb :
  fallBackFunction e = Some fb →
  ∃ e' tr fb', run_op o e = Done () e' tr ∧ fallBackFunction e' = Some fb'.
Proof.
  intros Hfb.
  destruct o as [s | fb0 | s1 s2 inp cb | s | | inp]; simpl.
  - destruct (decide (s ∈ listOfStates e)) as [Hs | Hs].
    + rewrite AddState_known by done. by eexists _, _, _.
    + rewrite AddState_fresh by done. by eexists _, _, _.
  - rewrite SetFallback_eq. by eexists _, _, _.
  - destruct (decide (s1 ∈ listOfStates e)) as [H1 | H1];
      [destruct (decide (s2 ∈ listOfStates e)) as [H2 | H2] |].
    + rewrite AddTransition_valid by done. by eexists _, _, _.
    + rewrite AddTransition_bad_destination, Hfb by done. by eexists _, _, _.
    + rewrite AddTransition_bad_source, Hfb by done. by eexists _, _, _.
  - destruct (decide (s ∈ listOfStates e)) as [Hs | Hs].
    + rewrite ResetMachine_valid by done. by eexists _, _, _.
    + rewrite ResetMachine_invalid, Hfb by done. by eexists _, _, _.
  - run_fsm. by eexists _, _, _.
  - destruct (sd e !! (currentState e, inp)) as [[s' cb] |] eqn:Hit.
    + rewrite (Step_found _ _ _ _ Hit). by eexists _, _, _.
    + rewrite (Step_not_found _ _ Hit), Hfb. by eexists _, _, _.
Qed.

(** The member functions that take [mutex_] hold it from their first to
    their last action. *)
Lemma locking_member_functions_under_mutex o e e' tr :
  o ≠ OpGetState →
  run_op o e = Done () e' tr →
  under_mutex tr = true.
Proof.
  intros Ho.
  destruct o as [s | fb | s1 s2 inp cb | s | | inp]; simpl; intros Hrun.
  - destruct (decide (s ∈ listOfStates e)) as [Hs | Hs].
    + rewrite AddState_known in Hrun by done. by simplify_eq.
    + rewrite AddState_fresh in Hrun by done. by simplify_eq.
  - rewrite SetFallback_eq in Hrun. by simplify_eq.
  - destruct (decide (s1 ∈ listOfStates e)) as [H1 | H1];
      [destruct (decide (s2 ∈ listOfStates e)) as [H2 | H2] |].
    + rewrite AddTransition_valid in Hrun by done. by simplify_eq.
    + rewrite AddTransition_bad_destination in Hrun by done.
      destruct (fallBackFunction e); by simplify_eq.
    + rewrite AddTransition_bad_source in Hrun by done.
      destruct (fallBackFunction e); by simplify_eq.
  - destruct (decide (s ∈ listOfStates e)) as [Hs | Hs].
    + rewrite ResetMachine_valid in Hrun by done. by simplify_eq.
    + rewrite ResetMachine_invalid in Hrun by done.
      destruct (fallBackFunction e); by simplify_eq.
  - done.
  - destruct (sd e !! (currentState e, inp)) as [[s' cb] |] eqn:Hit.
    + rewrite (Step_found _ _ _ _ Hit) in Hrun. by simplify_eq.
    + rewrite (Step_not_found _ _ Hit) in Hrun.
      destruct (fallBackFunction e); by simplify_eq.
Qed.

(** *** The claims *)

(** C1.  When the table has an entry for the key made of the current state
    and the input, [Step] stores the entry's destination in [currentState]
    and then calls the entry's callback.  The callback is the only function
    called, it is called once, and it runs on a machine that is already in
    the destination state: [GetState] there returns the destination. *)
Theorem Step_takes_registered_transition e inp s' cb :
  sd e !! (currentState e, inp) = Some (s', cb) →
  ∃ e' tr,
    Step inp e = Done () e' tr
    ∧ e' = set_currentState s' e
    ∧ tr = [EvLock; EvCall cb e'; EvUnlock]
    ∧ GetState e' = Done s' e' []
    ∧ calls tr = [cb].
Proof.
  intros Hit. eexists _, _. split; [by apply Step_found |]. done.
Qed.

(** C2, as the code has it.  [AddTransition] between registered states for
    a key that already has an entry returns without changing the object and
    without calling anything: the first registration stays.  After any
    further requests, a [Step] on that input from the source state still
    goes to the first destination and calls the first callback. *)
Theorem AddTransition_keeps_first_registration e s1 s2 inp cb s' cb' :
  s1 ∈ listOfStates e → s2 ∈ listOfStates e →
  sd e !! (s1, inp) = Some (s', cb') →
  AddTransition s1 s2 inp cb e = Done () e [EvLock; EvUnlock]
  ∧ ∀ os e1 tr,
      run_ops os e = Done () e1 tr →
      currentState e1 = s1 →
      Step inp e1
      = Done () (set_currentState s' e1)
          [EvLock; EvCall cb' (set_currentState s' e1); EvUnlock].
Proof.
  intros H1 H2 Hit. split.
  - rewrite AddTransition_valid by done.
    unfold map_insert. rewrite Hit. by destruct e.
  - intros os e1 tr Hrun Hcur.
    apply run_ops_grows in Hrun as [_ Hsd].
    apply Step_found. rewrite Hcur.
    by eapply lookup_weaken.
Qed.

(** C3.  When the table has no entry for the key made of the current state
    and the input, [Step] calls the fallback function, once, calls nothing
    else and leaves the object, hence what [GetState] returns, as it
    was. *)
Theorem Step_without_transition_calls_fallback e inp fb :
  sd e !! (currentState e, inp) = None →
  fallBackFunction e = Some fb →
  ∃ tr,
    Step inp e = Done () e tr
    ∧ tr = [EvLock; EvCall fb e; EvUnlock]
    ∧ calls tr = [fb]
    ∧ GetState e = Done (currentState e) e [].
Proof.
  intros Hit Hfb. eexists. split; [| done].
  by rewrite Step_not_found, Hfb.
Qed.

(** C4.  [AddTransition] with a source or a destination that is not in the
    state list calls the fallback function, once, and returns the object as
    it was: the table has no new and no changed entry. *)
Theorem AddTransition_unregistered_endpoint e s1 s2 inp cb fb :
  s1 ∉ listOfStates e ∨ s2 ∉ listOfStates e →
  fallBackFunction e = Some fb →
  ∃ tr,
    AddTransition s1 s2 inp cb e = Done () e tr
    ∧ tr = [EvLock;
            EvCout (if decide (s1 ∉ listOfStates e) then s1 else s2);
            EvCall fb e; EvUnlock]
    ∧ calls tr = [fb].
Proof.
  intros Hbad Hfb. eexists. split; [| done].
  destruct (decide (s1 ∉ listOfStates e)) as [H1 | H1].
  - by rewrite AddTransition_bad_source, Hfb.
  - apply dec_stable in H1. destruct Hbad as [? | H2]; [done |].
    by rewrite AddTransition_bad_destination, Hfb.
Qed.

(** C5.  [ResetMachine] with a state of the state list stores it in
    [currentState], so that [GetState] returns it, and calls neither a
    callback nor the fallback function. *)
Theorem ResetMachine_registered e s :
  s ∈ listOfStates e →
  ∃ e' tr,
    ResetMachine s e = Done () e' tr
    ∧ e' = set_currentState s e
    ∧ GetState e' = Done s e' []
    ∧ calls tr = [].
Proof.
  intros Hs. eexists _, _. split; [by apply ResetMachine_valid |]. done.
Qed.

(** C6.  [ResetMachine] with a state that is not in the state list calls
    the fallback function, once, and returns the object exactly as it
    was. *)
Theorem ResetMachine_unregistered e s fb :
  s ∉ listOfStates e →
  fallBackFunction e = Some fb →
  ∃ tr,
    ResetMachine s e = Done () e tr
    ∧ tr = [EvLock; EvCout s; EvCall fb e; EvUnlock]
    ∧ calls tr = [fb].
Proof.
  intros Hs Hfb. eexists. split; [| done].
  by rewrite ResetMachine_invalid, Hfb.
Qed.

(** C7.  [AddState] always returns, and calls nothing.  After it the state
    is in the state list, and a second [AddState] of the same state leaves
    the object as the first one made it. *)
Theorem AddState_idempotent e s :
  ∃ e1 tr,
    AddState s e = Done () e1 [EvLock; EvUnlock]
    ∧ listOfStates e1 = {[s]} ∪ listOfStates e
    ∧ AddState s e1 = Done () e1 [EvLock; EvUnlock]
    ∧ (AddState s ;; AddState s) e = Done () e1 tr
    ∧ calls tr = [].
Proof.
  destruct (decide (s ∈ listOfStates e)) as [Hs | Hs].
  - exists e, [EvLock; EvUnlock; EvLock; EvUnlock].
    rewrite AddState_known by done.
    split; [done |]. split; [| split; [done |]].
    { apply set_eq. intros x. rewrite elem_of_union, elem_of_singleton.
      split; [tauto | by intros [-> | ?]]. }
    split; [| done]. unfold mbind, M_bind. by rewrite !AddState_known.
  - exists (set_listOfStates ({[s]} ∪ listOfStates e) e),
      [EvLock; EvUnlock; EvLock; EvUnlock].
    assert (s ∈ listOfStates (set_listOfStates ({[s]} ∪ listOfStates e) e))
      as Hs' by (simpl; set_solver).
    rewrite AddState_fresh by done.
    split; [done |]. split; [done |]. split; [by rewrite AddState_known |].
    split; [| done]. unfold mbind, M_bind. rewrite AddState_fresh by done.
    by rewrite AddState_known.
Qed.

(** C8.  Whatever requests are made ([AddState], [SetFallback],
    [AddTransition], [ResetMachine], [GetState], [Step]), every state of
    the state list is still in it afterwards and every entry of the table
    is still in the table. *)
Theorem containers_only_grow os e e' tr :
  run_ops os e = Done () e' tr →
  listOfStates e ⊆ listOfStates e'
  ∧ sd e ⊆ sd e'
  ∧ ∀ k, is_Some (sd e !! k) → is_Some (sd e' !! k).
Proof.
  intros Hrun. apply run_ops_grows in Hrun as [Hl Hsd].
  split; [done |]. split; [done |].
  intros k [v Hk]. exists v. by eapply lookup_weaken.
Qed.

(** C9, where the code departs from it.  [GetState] returns the current
    state without taking [mutex_]: its run has no event at all, so it is not
    made under the mutex, unlike the runs of the other member functions. *)
Theorem GetState_takes_no_mutex e :
  ∃ tr,
    GetState e = Done (currentState e) e tr
    ∧ tr = []
    ∧ under_mutex tr = false.
Proof. by exists []. Qed.

(** C10.  Start from a new object and make any requests; then a
    [ResetMachine] with a state that is in the state list at that point;
    then any further requests.  The current state is in the state list at
    the end. *)
Theorem current_state_registered_after_reset
    (s0 : State) pre s post e1 tr1 e tr :
  run_ops pre (fsm_new s0) = Done () e1 tr1 →
  s ∈ listOfStates e1 →
  run_ops (OpResetMachine s :: post) e1 = Done () e tr →
  currentState e ∈ listOfStates e.
Proof.
  intros Hpre Hs Hrun.
  apply run_ops_keeps_registered in Hpre as [Hdst1 _];
    [| apply fsm_new_destinations_registered].
  apply run_ops_cons in Hrun as (e2 & tr2 & tr3 & Hreset & Hpost & _).
  simpl in Hreset. rewrite ResetMachine_valid in Hreset by done.
  simplify_eq.
  apply run_ops_keeps_registered in Hpost as [_ Hcur]; [by apply Hcur |].
  done.
Qed.

(** *** Further properties of the member functions *)

(** Case analysis on a request and on the branch it takes on [e]; every
    [run_op] on [e], in the goal and in the hypotheses, is replaced by what
    it computes. *)
Ltac op_cases o e :=
  let s := fresh "s" in let fb0 := fresh "fb0" in
  let s1 := fresh "s1" in let s2 := fresh "s2" in
  let inp := fresh "inp" in let cb := fresh "cb" in
  let Hs := fresh "Hs" in let Hs' := fresh "Hs'" in
  let Hit := fresh "Hit" in let s' := fresh "s'" in
  destruct o as [s | fb0 | s1 s2 inp cb | s | | inp]; simpl run_op in *;
  [ destruct (decide (s ∈ listOfStates e)) as [Hs | Hs];
    [ rewrite (AddState_known e s Hs) in *
    | rewrite (AddState_fresh e s Hs) in * ]
  | rewrite (SetFallback_eq e fb0) in *
  | destruct (decide (s1 ∈ listOfStates e)) as [Hs | Hs];
    [ destruct (decide (s2 ∈ listOfStates e)) as [Hs' | Hs'];
      [ rewrite (AddTransition_valid e s1 s2 inp cb Hs Hs') in *
      | rewrite (AddTransition_bad_destination e s1 s2 inp cb Hs Hs') in * ]
    | rewrite (AddTransition_bad_source e s1 s2 inp cb Hs) in * ]
  | destruct (decide (s ∈ listOfStates e)) as [Hs | Hs];
    [ rewrite (ResetMachine_valid e s Hs) in *
    | rewrite (ResetMachine_invalid e s Hs) in * ]
  | change ((GetState ;; mret ()) e) with (Done () e []) in *
  | destruct (sd e !! (currentState e, inp)) as [[s' cb] |] eqn:Hit;
    [ rewrite (Step_found e inp s' cb Hit) in *
    | rewrite (Step_not_found e inp Hit) in * ] ].

Lemma set_listOfStates_id e : set_listOfStates (listOfStates e) e = e.
Proof. by destruct e. Qed.

Lemma set_currentState_id e : set_currentState (currentState e) e = e.
Proof. by destruct e. Qed.

(** [AddState] is insertion into the set, whether the state is new or
    not. *)
Lemma AddState_eq e s :
  AddState s e
  = Done () (set_listOfStates ({[s]} ∪ listOfStates e) e) [EvLock; EvUnlock].
Proof.
  destruct (decide (s ∈ listOfStates e)) as [Hs | Hs].
  - rewrite AddState_known by done.
    replace ({[s]} ∪ listOfStates e) with (listOfStates e).
    + by rewrite set_listOfStates_id.
    + apply set_eq. intros x. rewrite elem_of_union, elem_of_singleton.
      split; [tauto | by intros [-> | ?]].
  - by apply AddState_fresh.
Qed.

Lemma bind_Done {A B : Type} (m : M A) (k : A → M B) e a e1 tr1 :
  m e = Done a e1 tr1 →
  (m ≫= k) e
  = match k a e1 with
    | Done b e2 tr2 => Done b e2 (tr1 ++ tr2)
    | Fault tr2 => Fault (tr1 ++ tr2)
    end.
Proof. intros Hm. unfold mbind, M_bind. by rewrite Hm. Qed.

Lemma mutex_discipline_app held tr1 tr2 :
  mutex_discipline held tr1 = true →
  mutex_discipline false tr2 = true →
  mutex_discipline held (tr1 ++ tr2) = true.
Proof.
  revert held. induction tr1 as [| ev tr1 IH]; intros held H1 H2.
  - destruct held; [done | by simpl].
  - destruct ev, held; simpl in *; try done; by apply IH.
Qed.

(** [SetFallback] replaces the fallback: of two in a row the second is the
    one a later unmatched [Step] calls, whether or not the object had a
    fallback before. *)
Theorem SetFallback_last_wins e fb1 fb2 inp :
  sd e !! (currentState e, inp) = None →
  ∃ tr,
    (SetFallback fb1 ;; SetFallback fb2 ;; Step inp) e
    = Done () (set_fallBackFunction fb2 e) tr
    ∧ calls tr = [fb2].
Proof.
  intros Hit. eexists. run_fsm. rewrite Hit. done.
Qed.

(** Once a fallback is set no sequence of requests can call through an
    unset pointer: every run returns, and a fallback is still set at the
    end. *)
Theorem run_ops_never_faults os e fb :
  fallBackFunction e = Some fb →
  ∃ e' tr fb',
    run_ops os e = Done () e' tr ∧ fallBackFunction e' = Some fb'.
Proof.
  revert e fb. induction os as [| o os IH]; intros e fb Hfb.
  - by exists e, [], fb.
  - destruct (run_op_total o e fb Hfb) as (e1 & tr1 & fb1 & Ho & Hfb1).
    destruct (IH e1 fb1 Hfb1) as (e' & tr2 & fb' & Hos & Hfb').
    exists e', (tr1 ++ tr2), fb'. split; [| done].
    simpl. rewrite (bind_Done _ _ _ _ _ _ Ho). by rewrite Hos.
Qed.

(** A request calls through the unset pointer exactly when no fallback is
    set and the request takes a branch that wants the fallback. *)
Theorem run_op_faults_iff o e :
  (∃ tr, run_op o e = Fault tr)
  ↔ fallBackFunction e = None ∧ wants_fallback o e = true.
Proof.
  unfold wants_fallback.
  op_cases o e; rewrite ?Hit;
    try (split; [by intros [? ?] | intros [_ Hw]; try done;
                 apply bool_decide_eq_true in Hw; tauto]).
  all: destruct (fallBackFunction e) as [fb |];
    (split; [intros [? ?]; try done | intros [? _]; try done]).
  all: try (split; [done |]); try by eexists.
  all: apply bool_decide_eq_true; tauto.
Qed.

(** A request that returns has called what [called] says: the fallback on
    a failing branch, the entry's callback on a [Step] that finds one,
    nothing otherwise; never more than one function. *)
Theorem run_op_calls o e e' tr :
  run_op o e = Done () e' tr →
  calls tr = called o e ∧ length (calls tr) ≤ 1.
Proof.
  unfold called, wants_fallback. intros Hrun.
  op_cases o e; rewrite ?Hit;
    try (destruct (fallBackFunction e) as [fb |]; [| done]);
    simplify_eq; simpl.
  all: try (rewrite bool_decide_eq_false_2 by tauto).
  all: try (rewrite bool_decide_eq_true_2 by tauto).
  all: split; [done | lia].
Qed.

(** Along any run that returns, the mutex is taken and released in turn,
    every output and every call through a function pointer is made while
    it is held, and it is free at the end. *)
Theorem run_ops_mutex_discipline os e e' tr :
  run_ops os e = Done () e' tr →
  mutex_discipline false tr = true.
Proof.
  revert e tr. induction os as [| o os IH]; intros e tr Hrun.
  - simpl in Hrun. unfold mret, M_ret in Hrun. by simplify_eq.
  - apply run_ops_cons in Hrun as (e1 & tr1 & tr2 & Ho & Hos & ->).
    apply mutex_discipline_app; [| by eapply IH].
    clear Hos IH.
    op_cases o e;
      try (destruct (fallBackFunction e) as [fb |]; [| done]);
      by simplify_eq.
Qed.

(** [AddTransition] between registered states on a key that has no entry
    adds exactly that entry and changes nothing else; from then on, after
    any further requests, a [Step] on that input from the source state goes
    to the destination and calls the callback. *)
Theorem AddTransition_fresh_key e s1 s2 inp cb :
  s1 ∈ listOfStates e → s2 ∈ listOfStates e →
  sd e !! (s1, inp) = None →
  AddTransition s1 s2 inp cb e
  = Done () (set_sd (<[(s1, inp) := (s2, cb)]> (sd e)) e) [EvLock; EvUnlock]
  ∧ ∀ os e1 tr,
      run_ops os (set_sd (<[(s1, inp) := (s2, cb)]> (sd e)) e)
      = Done () e1 tr →
      currentState e1 = s1 →
      Step inp e1
      = Done () (set_currentState s2 e1)
          [EvLock; EvCall cb (set_currentState s2 e1); EvUnlock].
Proof.
  intros H1 H2 Hfree. split.
  - rewrite AddTransition_valid by done. unfold map_insert. by rewrite Hfree.
  - intros os e1 tr Hrun Hcur.
    apply run_ops_grows in Hrun as [_ Hsd]. simpl in Hsd.
    apply Step_found. rewrite Hcur.
    eapply lookup_weaken; [| exact Hsd]. apply lookup_insert_eq.
Qed.

(** What a request leaves alone: only [AddState] of a new state changes
    the state list, only [AddTransition] the table, only [SetFallback] the
    fallback, and only [ResetMachine] and [Step] the current state. *)
Theorem run_op_frame o e e' tr :
  run_op o e = Done () e' tr →
  (listOfStates e' ≠ listOfStates e →
     ∃ s, o = OpAddState s ∧ s ∉ listOfStates e)
  ∧ (sd e' ≠ sd e → ∃ s1 s2 inp cb, o = OpAddTransition s1 s2 inp cb)
  ∧ (fallBackFunction e' ≠ fallBackFunction e → ∃ fb, o = OpSetFallback fb)
  ∧ (currentState e' ≠ currentState e →
       (∃ s, o = OpResetMachine s) ∨ (∃ inp, o = OpStep inp)).
Proof.
  intros Hrun.
  op_cases o e;
    try (destruct (fallBackFunction e) as [fb |] eqn:Hfb; [| done]);
    simplify_eq; simpl; repeat split; intros Hne;
    try done; try congruence; eauto 6.
Qed.

Lemma walk_set_currentState e s cur inps :
  walk (set_currentState s e) cur inps = walk e cur inps.
Proof. revert cur. induction inps as [| inp inps IH]; intros cur; [done |]. apply IH. Qed.

Lemma walk_calls_set_currentState e fb s cur inps :
  walk_calls (set_currentState s e) fb cur inps = walk_calls e fb cur inps.
Proof.
  revert cur. induction inps as [| inp inps IH]; intros cur; [done |].
  simpl. by rewrite IH.
Qed.

(** With a fallback set, a series of [Step]s runs the table as a
    transition function: it returns, only the current state changes, the
    machine ends where [walk] leads (an input without entry keeps it in
    place), and the functions called are, in order, the ones [walk_calls]
    lists, one for each input. *)
Theorem Steps_follow_table inps e fb :
  fallBackFunction e = Some fb →
  ∃ tr,
    run_ops (OpStep <$> inps) e
    = Done () (set_currentState (walk e (currentState e) inps) e) tr
    ∧ calls tr = walk_calls e fb (currentState e) inps
    ∧ length (calls tr) = length inps.
Proof.
  revert e. induction inps as [| inp inps IH]; intros e Hfb.
  - exists []. simpl. by rewrite set_currentState_id.
  - rewrite fmap_cons. cbn [run_ops run_op walk walk_calls length].
    unfold next_state, next_call.
    destruct (sd e !! (currentState e, inp)) as [[s' cb] |] eqn:Hit.
    + destruct (IH (set_currentState s' e) Hfb) as (tr & Hrun & Hcalls & Hlen).
      eexists. rewrite (bind_Done _ _ _ _ _ _ (Step_found _ _ _ _ Hit)).
      rewrite Hrun. simpl in Hcalls |- *.
      rewrite walk_set_currentState, walk_calls_set_currentState in *.
      split; [done |]. simpl. by rewrite Hlen, Hcalls.
    + destruct (IH e Hfb) as (tr & Hrun & Hcalls & Hlen).
      assert (Step inp e = Done () e [EvLock; EvCall fb e; EvUnlock]) as Hstep
        by (by rewrite Step_not_found, Hfb).
      eexists. rewrite (bind_Done _ _ _ _ _ _ Hstep).
      rewrite Hrun. simpl. split; [done |]. simpl. by rewrite Hlen, Hcalls.
Qed.

Lemma run_op_keeps_endpoints o e e' tr :
  run_op o e = Done () e' tr →
  endpoints_registered e → endpoints_registered e'.
Proof.
  intros Hrun Hend.
  op_cases o e;
    try (destruct (fallBackFunction e) as [fb |]; [| done]);
    simplify_eq; try done.
  - intros s1 inp s' cb Hk. simpl in *. apply Hend in Hk as [? ?].
    split; apply elem_of_union; by right.
  - intros s inp0 s' cb0 Hk. simpl in *.
    unfold map_insert in Hk.
    destruct (sd e !! (s1, inp)) eqn:Hold; [by eapply Hend |].
    rewrite lookup_insert in Hk. case_decide; simplify_eq; [done |].
    by eapply Hend.
Qed.

Lemma run_ops_keeps_endpoints os e e' tr :
  run_ops os e = Done () e' tr →
  endpoints_registered e → endpoints_registered e'.
Proof.
  revert e tr. induction os as [| o os IH]; intros e tr Hrun Hend.
  - simpl in Hrun. unfold mret, M_ret in Hrun. by simplify_eq.
  - apply run_ops_cons in Hrun as (e1 & tr1 & tr2 & Ho & Hos & _).
    eapply IH; [exact Hos |]. by eapply run_op_keeps_endpoints.
Qed.

Lemma fsm_new_endpoints_registered (s0 : State) :
  endpoints_registered (fsm_new (Input:=Input) (FuncPtr:=FuncPtr) s0).
Proof. intros ? ? ? ? Hk. simpl in Hk. by rewrite lookup_empty in Hk. Qed.

(** On an object made by the constructor and used through any requests,
    both ends of every entry of the table are in the state list. *)
Theorem table_endpoints_registered (s0 : State) os e tr s inp s' cb :
  run_ops os (fsm_new s0) = Done () e tr →
  sd e !! (s, inp) = Some (s', cb) →
  s ∈ listOfStates e ∧ s' ∈ listOfStates e.
Proof.
  intros Hrun Hk.
  eapply run_ops_keeps_endpoints; [exact Hrun | | exact Hk].
  apply fsm_new_endpoints_registered.
Qed.


(** The order in which two states are added does not matter: the two
    orders give the same object and the same events. *)
Theorem AddState_commutes e a b :
  (AddState a ;; AddState b) e = (AddState b ;; AddState a) e.
Proof.
  rewrite (bind_Done _ _ _ _ _ _ (AddState_eq e a)).
  rewrite (bind_Done _ _ _ _ _ _ (AddState_eq e b)).
  assert ({[b]} ∪ ({[a]} ∪ listOfStates e)
          = {[a]} ∪ ({[b]} ∪ listOfStates e)) as Hset.
  { apply set_eq. intros x.
    rewrite !elem_of_union, !elem_of_singleton. tauto. }
  rewrite !AddState_eq. unfold set_listOfStates. simpl.
  by rewrite Hset.
Qed.

Lemma map_insert_commute (k1 k2 : State * Input) (v1 v2 : State * FuncPtr)
    (m : gmap (State * Input) (State * FuncPtr)) :
  k1 ≠ k2 →
  map_insert k2 v2 (map_insert k1 v1 m) = map_insert k1 v1 (map_insert k2 v2 m).
Proof.
  intros Hne. unfold map_insert.
  destruct (m !! k1) eqn:H1, (m !! k2) eqn:H2;
    rewrite ?H1, ?H2, ?lookup_insert_ne, ?H1, ?H2 by done; try done.
  by apply insert_insert_ne.
Qed.

(** Two registrations between registered states on different keys can be
    made in either order: same object, same events.  (On one key the first
    one made is the one kept.) *)
Theorem AddTransition_commutes e s1 s2 inp cb s1' s2' inp' cb' :
  s1 ∈ listOfStates e → s2 ∈ listOfStates e →
  s1' ∈ listOfStates e → s2' ∈ listOfStates e →
  (s1, inp) ≠ (s1', inp') →
  (AddTransition s1 s2 inp cb ;; AddTransition s1' s2' inp' cb') e
  = (AddTransition s1' s2' inp' cb' ;; AddTransition s1 s2 inp cb) e.
Proof.
  intros H1 H2 H1' H2' Hne.
  rewrite (bind_Done _ _ _ _ _ _ (AddTransition_valid e s1 s2 inp cb H1 H2)).
  rewrite (bind_Done _ _ _ _ _ _
             (AddTransition_valid e s1' s2' inp' cb' H1' H2')).
  rewrite !AddTransition_valid by done. simpl. unfold set_sd. simpl.
  by rewrite map_insert_commute.
Qed.

(** The example usage of the README, on a new object with no fallback
    set, returns without touching the fallback.  Its first [assert] holds
    for all values.  Its second one holds as well when the two keys
    differ; when they are the same key the second registration is not
    kept, and the machine ends in [b] after calling [callback1] twice. *)
Theorem readme_example_runs (s0 a b c : State) (input1 input2 : Input)
    (callback1 callback2 : FuncPtr) :
  ∃ e tr,
    readme_example a b c input1 input2 callback1 callback2 (fsm_new s0)
    = Done (b, if decide ((a, input1) = (b, input2)) then b else c) e tr
    ∧ calls tr
      = [callback1;
         if decide ((a, input1) = (b, input2)) then callback1 else callback2]
    ∧ fallBackFunction e = None.
Proof.
  unfold readme_example.
  set (e0 := fsm_new (Input:=Input) (FuncPtr:=FuncPtr) s0).
  rewrite (bind_Done _ _ _ _ _ _ (AddState_eq e0 a)).
  rewrite (bind_Done _ _ _ _ _ _ (AddState_eq _ b)).
  set (e2 := set_listOfStates _ (set_listOfStates _ e0)).
  assert (a ∈ listOfStates e2) as Ha by (simpl; rewrite ?elem_of_union, ?elem_of_singleton; auto).
  assert (b ∈ listOfStates e2) as Hb by (simpl; rewrite ?elem_of_union, ?elem_of_singleton; auto).
  rewrite (bind_Done _ _ _ _ _ _ (AddTransition_valid e2 a b input1 callback1 Ha Hb)).
  set (e3 := set_sd _ e2).
  rewrite (bind_Done _ _ _ _ _ _ (ResetMachine_valid e3 a Ha)).
  set (e4 := set_currentState a e3).
  assert (sd e4 !! (currentState e4, input1) = Some (b, callback1)) as Hit1.
  { simpl. unfold map_insert. rewrite lookup_empty. apply lookup_insert_eq. }
  rewrite (bind_Done _ _ _ _ _ _ (Step_found e4 input1 b callback1 Hit1)).
  set (e5 := set_currentState b e4).
  rewrite (bind_Done (GetState) _ e5 b e5 []) by done.
  rewrite (bind_Done _ _ _ _ _ _ (AddState_eq e5 c)).
  set (e6 := set_listOfStates _ e5).
  assert (b ∈ listOfStates e6) as Hb6 by (simpl; rewrite ?elem_of_union, ?elem_of_singleton; auto).
  assert (c ∈ listOfStates e6) as Hc6 by (simpl; rewrite ?elem_of_union, ?elem_of_singleton; auto).
  rewrite (bind_Done _ _ _ _ _ _ (AddTransition_valid e6 b c input2 callback2 Hb6 Hc6)).
  set (e7 := set_sd _ e6).
  destruct (decide ((a, input1) = (b, input2))) as [Heq | Hne].
  - assert (sd e7 !! (currentState e7, input2) = Some (b, callback1)) as Hit2.
    { simpl. unfold map_insert. rewrite lookup_empty. rewrite <- Heq.
      rewrite lookup_insert_eq. simplify_eq. apply lookup_insert_eq. }
    rewrite (bind_Done _ _ _ _ _ _ (Step_found e7 input2 b callback1 Hit2)).
    by eexists _, _.
  - assert (sd e7 !! (currentState e7, input2) = Some (c, callback2)) as Hit2.
    { simpl. unfold map_insert. rewrite lookup_empty.
      rewrite lookup_insert_ne by done. rewrite lookup_empty.
      apply lookup_insert_eq. }
    rewrite (bind_Done _ _ _ _ _ _ (Step_found e7 input2 c callback2 Hit2)).
    by eexists _, _.
Qed.

End fsm_facts.

(** ** The test cases, run *)

Section test_runs.
Import TestCases.

(** [engine1] and [engine3] are what the constructor followed by the calls
    of [setup1] and [setup3] produce; in [setup3] the second
    [AddTransition] names the unknown [s3] and ends in the fallback. *)
Lemma setup1_runs :
  ∃ tr, run_ops setup1 (fsm_new "") = Done () engine1 tr ∧ calls tr = [].
Proof. eexists. split; vm_compute; reflexivity. Qed.

Lemma setup3_runs :
  ∃ tr, run_ops setup3 (fsm_new "") = Done () engine3 tr
        ∧ calls tr = [fallback].
Proof. eexists. split; vm_compute; reflexivity. Qed.

(** C1 on [testCase1]: the first [Step(inp1)], from [s1]. *)
Lemma Step_takes_registered_transition_witness :
  sd engine1 !! (currentState engine1, inp1) = Some (s2, callback1)
  ∧ ∃ e' tr,
      Step inp1 engine1 = Done () e' tr
      ∧ e' = set_currentState s2 engine1
      ∧ tr = [EvLock; EvCall callback1 e'; EvUnlock]
      ∧ GetState e' = Done s2 e' []
      ∧ calls tr = [callback1].
Proof.
  split; [vm_compute; reflexivity |].
  apply (Step_takes_registered_transition engine1 inp1 s2 callback1).
  vm_compute; reflexivity.
Defined.

(** C2 as stated fails on [engine1]: [s1] and [s3] are registered and the
    key [(s1, inp1)] is taken; [AddTransition(s1, s3, inp1, callback2)]
    leaves the entry at [(s2, callback1)], and the next [Step(inp1)] from
    [s1] goes to [s2] through [callback1]. *)
Lemma AddTransition_overwrite_counterexample :
  s1 ∈ listOfStates engine1
  ∧ s3 ∈ listOfStates engine1
  ∧ sd engine1 !! (s1, inp1) = Some (s2, callback1)
  ∧ currentState engine1 = s1
  ∧ ∃ e' tr e'' tr',
      AddTransition s1 s3 inp1 callback2 engine1 = Done () e' tr
      ∧ sd e' !! (s1, inp1) = Some (s2, callback1)
      ∧ sd e' !! (s1, inp1) ≠ Some (s3, callback2)
      ∧ Step inp1 e' = Done () e'' tr'
      ∧ currentState e'' = s2
      ∧ currentState e'' ≠ s3
      ∧ calls tr' = [callback1]
      ∧ calls tr' ≠ [callback2].
Proof.
  repeat (split; [vm_compute; reflexivity |]).
  eexists _, _, _, _.
  repeat split; try (vm_compute; reflexivity); vm_compute; discriminate.
Qed.

(** C2 as the code has it, on the same call. *)
Lemma AddTransition_keeps_first_registration_witness :
  s1 ∈ listOfStates engine1
  ∧ s3 ∈ listOfStates engine1
  ∧ sd engine1 !! (s1, inp1) = Some (s2, callback1)
  ∧ AddTransition s1 s3 inp1 callback2 engine1
    = Done () engine1 [EvLock; EvUnlock]
  ∧ ∀ os e1 tr,
      run_ops os engine1 = Done () e1 tr →
      currentState e1 = s1 →
      Step inp1 e1
      = Done () (set_currentState s2 e1)
          [EvLock; EvCall callback1 (set_currentState s2 e1); EvUnlock].
Proof.
  repeat (split; [vm_compute; reflexivity |]).
  apply (AddTransition_keeps_first_registration
           engine1 s1 s3 inp1 callback2 s2 callback1);
    vm_compute; reflexivity.
Defined.

(** C3 on [engine1]: no transition leaves [s1] on [inp2]. *)
Lemma Step_without_transition_calls_fallback_witness :
  sd engine1 !! (currentState engine1, inp2) = None
  ∧ fallBackFunction engine1 = Some fallback
  ∧ ∃ tr,
      Step inp2 engine1 = Done () engine1 tr
      ∧ tr = [EvLock; EvCall fallback engine1; EvUnlock]
      ∧ calls tr = [fallback]
      ∧ GetState engine1 = Done (currentState engine1) engine1 [].
Proof.
  repeat (split; [vm_compute; reflexivity |]).
  apply (Step_without_transition_calls_fallback engine1 inp2 fallback);
    vm_compute; reflexivity.
Defined.

(** C4 on [testCase3]: [AddTransition(s2, s3, inp2, callback2)] while [s3]
    is unknown. *)
Lemma AddTransition_unregistered_endpoint_witness :
  (s2 ∉ listOfStates engine3 ∨ s3 ∉ listOfStates engine3)
  ∧ fallBackFunction engine3 = Some fallback
  ∧ ∃ tr,
      AddTransition s2 s3 inp2 callback2 engine3 = Done () engine3 tr
      ∧ tr = [EvLock;
              EvCout (if decide (s2 ∉ listOfStates engine3) then s2 else s3);
              EvCall fallback engine3; EvUnlock]
      ∧ calls tr = [fallback].
Proof.
  assert (s2 ∉ listOfStates engine3 ∨ s3 ∉ listOfStates engine3) as Hbad
    by (right; vm_compute; discriminate).
  split; [exact Hbad |].
  split; [vm_compute; reflexivity |].
  apply (AddTransition_unregistered_endpoint
           engine3 s2 s3 inp2 callback2 fallback Hbad).
  vm_compute; reflexivity.
Defined.

(** C5 on [testCase1]: [ResetMachine(s2)]. *)
Lemma ResetMachine_registered_witness :
  s2 ∈ listOfStates engine1
  ∧ ∃ e' tr,
      ResetMachine s2 engine1 = Done () e' tr
      ∧ e' = set_currentState s2 engine1
      ∧ GetState e' = Done s2 e' []
      ∧ calls tr = [].
Proof.
  split; [vm_compute; reflexivity |].
  apply (ResetMachine_registered engine1 s2). vm_compute; reflexivity.
Defined.

(** C6 on [testCase3]: [ResetMachine(s3)]. *)
Lemma ResetMachine_unregistered_witness :
  (s3 ∉ listOfStates engine3)
  ∧ fallBackFunction engine3 = Some fallback
  ∧ ∃ tr,
      ResetMachine s3 engine3 = Done () engine3 tr
      ∧ tr = [EvLock; EvCout s3; EvCall fallback engine3; EvUnlock]
      ∧ calls tr = [fallback].
Proof.
  split; [vm_compute; discriminate |].
  split; [vm_compute; reflexivity |].
  apply (ResetMachine_unregistered engine3 s3 fallback);
    [vm_compute; discriminate | vm_compute; reflexivity].
Defined.

(** C8 on [testCase3] continued: [s3] is added, the transition that was
    refused is registered, and the machine steps. *)
Lemma containers_only_grow_witness :
  ∃ tr,
    run_ops [ OpAddState s3; OpAddTransition s2 s3 inp2 callback2;
              OpGetState; OpStep inp1 ] engine3
    = Done () (set_currentState s2 engine1) tr
    ∧ listOfStates engine3 ⊆ listOfStates (set_currentState s2 engine1)
    ∧ sd engine3 ⊆ sd (set_currentState s2 engine1)
    ∧ ∀ k, is_Some (sd engine3 !! k) →
           is_Some (sd (set_currentState s2 engine1) !! k).
Proof.
  eexists.
  refine (let Hrun := _ in
          conj Hrun (containers_only_grow
                       [ OpAddState s3; OpAddTransition s2 s3 inp2 callback2;
                         OpGetState; OpStep inp1 ]
                       engine3 (set_currentState s2 engine1) _ Hrun)).
  vm_compute. reflexivity.
Defined.

(** C10 on [testCase1]: everything before [ResetMachine(s1)], the reset,
    then the three [Step] calls that follow. *)
Lemma current_state_registered_after_reset_witness :
  ∃ tr1 tr,
    run_ops [ OpSetFallback fallback;
              OpAddState s1; OpAddState s2; OpAddState s3;
              OpAddTransition s1 s2 inp1 callback1;
              OpAddTransition s2 s3 inp2 callback2 ] (fsm_new "")
    = Done () (set_currentState "" engine1) tr1
    ∧ s1 ∈ listOfStates (set_currentState "" engine1)
    ∧ run_ops [ OpResetMachine s1; OpStep inp1; OpStep inp2; OpStep inp2 ]
        (set_currentState "" engine1)
      = Done () (set_currentState s3 engine1) tr
    ∧ currentState (set_currentState s3 engine1)
      ∈ listOfStates (set_currentState s3 engine1).
Proof.
  eexists _, _.
  do 3 (split; [vm_compute; reflexivity |]).
  eapply (current_state_registered_after_reset ""
            [ OpSetFallback fallback;
              OpAddState s1; OpAddState s2; OpAddState s3;
              OpAddTransition s1 s2 inp1 callback1;
              OpAddTransition s2 s3 inp2 callback2 ]
            s1 [OpStep inp1; OpStep inp2; OpStep inp2]
            (set_currentState "" engine1));
    vm_compute; reflexivity.
Defined.

End test_runs.

(** ** The test programs, run *)

Section test_programs.
Import TestCases TestPrograms.

(** [testCase1] returns; each of its five [myAssert]s writes its success
    line and nothing else; the functions called are [callback1],
    [callback2] and, for the [Step] without transition, [fallback]. *)
Theorem testCase1_passes (fileName : string) :
  ∃ tr,
    testCase1 fileName
    = Done
        [ [CoutStr " Test Case 1 starts  "];
          [CoutStr " TEST_SUITE_COMMAND: SUCCESS"];
          [CoutStr " TEST_SUITE_COMMAND: SUCCESS, callback 1 function should be called, check manually"];
          [CoutStr " TEST_SUITE_COMMAND: SUCCESS, callback 2 function should be called, check manually"];
          [CoutStr " TEST_SUITE_COMMAND: SUCCESS, fallback function should be called, check manually"];
          [CoutStr " TEST_SUITE_COMMAND: SUCCESS"];
          [CoutStr " Test Case 1 ends  "] ]
        (set_currentState s2 engine1) tr
    ∧ calls tr = [callback1; callback2; fallback].
Proof. eexists. split; vm_compute; reflexivity. Qed.

(** [testCase3] returns; its three [myAssert]s write their success lines;
    the fallback is called for the [AddTransition] to the unknown [s3],
    for the [ResetMachine] to it, and for the [Step] on [inp2], whose
    transition was never registered. *)
Theorem testCase3_passes (fileName : string) :
  ∃ tr,
    testCase3 fileName
    = Done
        [ []; [CoutStr " Test Case 3 starts  "]; [];
          [CoutStr " TEST_SUITE_COMMAND: s3 is not a defined state, sytem should give an error, fallback function should be called,  check manually  "];
          [CoutStr "SUCCESS"];
          [CoutStr " TEST_SUITE_COMMAND: s3 is not a defined state, sytem should give an error, fallback function should be called,  check manually  "];
          [CoutStr " TEST_SUITE_COMMAND: SUCCESS, callback 1 function should be called, check manually"];
          [CoutStr " TEST_SUITE_COMMAND: SUCCESS, fallback function should be called, check manually"];
          []; [CoutStr " Test Case 3 ends  "]; [] ]
        (set_currentState s2 engine3) tr
    ∧ calls tr = [fallback; fallback; callback1; fallback].
Proof. eexists. split; vm_compute; reflexivity. Qed.

(** [testCase2] returns, and each of its five [myAssert]s writes its
    success line, whatever the four unassigned pointers hold.  The last
    [Step], which the test expects to end in the fallback, does so exactly
    when [s3] and [s2] hold different addresses; when they hold the same
    one it takes the transition again and calls [callback2]. *)
Theorem testCase2_passes (p0 p1 p2 p3 : N) (fileName : string) :
  ∃ e tr,
    testCase2 p0 p1 p2 p3 fileName
    = Done
        [ []; [CoutStr " Test Case 2 starts  "]; [];
          [CoutStr "SUCCESS"];
          [CoutStr "SUCCESS, callback 1 function must be called, check manually"];
          [CoutStr "SUCCESS, callback 2 function must be called, check manually"];
          [CoutStr "SUCCESS, fallback function must be called, check manually"];
          [CoutStr " TEST_SUITE_COMMAND: SUCCESS"];
          []; [CoutStr " Test Case 2 ends  "]; [] ]
        e tr
    ∧ currentState e = p2
    ∧ calls tr
      = [callback1; callback2;
         if decide (p3 = p2) then callback2 else fallback].
Proof.
  unfold testCase2, testCase2_body. cbv zeta.
  set (e0 := fsm_new (Input:=Z) (FuncPtr:=fn) p0).
  rewrite (bind_Done _ _ _ _ _ _ (SetFallback_eq e0 fallback)).
  rewrite (bind_Done _ _ _ _ _ _ (AddState_eq _ p1)).
  rewrite (bind_Done _ _ _ _ _ _ (AddState_eq _ p2)).
  rewrite (bind_Done _ _ _ _ _ _ (AddState_eq _ p3)).
  set (e4 := set_listOfStates _ (set_listOfStates _ (set_listOfStates _ _))).
  assert (p1 ∈ listOfStates e4) as H1
    by (simpl; rewrite ?elem_of_union, ?elem_of_singleton; auto).
  assert (p2 ∈ listOfStates e4) as H2
    by (simpl; rewrite ?elem_of_union, ?elem_of_singleton; auto).
  assert (p3 ∈ listOfStates e4) as H3
    by (simpl; rewrite ?elem_of_union, ?elem_of_singleton; auto).
  rewrite (bind_Done _ _ _ _ _ _
             (AddTransition_valid e4 p1 p2 4%Z callback1 H1 H2)).
  set (e5 := set_sd _ e4).
  rewrite (bind_Done _ _ _ _ _ _
             (AddTransition_valid e5 p2 p3 5%Z callback2 H2 H3)).
  set (e6 := set_sd _ e5).
  assert (sd e6 = <[(p2, 5%Z) := (p3, callback2)]>
                    (<[(p1, 4%Z) := (p2, callback1)]> ∅)) as Hsd.
  { simpl. unfold map_insert. rewrite lookup_empty.
    by rewrite lookup_insert_ne, lookup_empty by congruence. }
  assert (∀ s, sd (set_currentState s e6) !! (p1, 4%Z) = Some (p2, callback1))
    as Hit1.
  { intros s. change (sd (set_currentState s e6)) with (sd e6). rewrite Hsd.
    rewrite lookup_insert_ne by congruence. apply lookup_insert_eq. }
  assert (∀ s, sd (set_currentState s e6) !! (p2, 5%Z) = Some (p3, callback2))
    as Hit2.
  { intros s. change (sd (set_currentState s e6)) with (sd e6). rewrite Hsd.
    apply lookup_insert_eq. }
  rewrite (bind_Done _ _ _ _ _ _ (ResetMachine_valid e6 p1 H1)).
  rewrite (bind_Done GetState _ (set_currentState p1 e6) p1
             (set_currentState p1 e6) []) by done.
  rewrite (bind_Done _ _ _ _ _ _
             (Step_found (set_currentState p1 e6) 4%Z p2 callback1 (Hit1 p1))).
  change (set_currentState p2 (set_currentState p1 e6))
    with (set_currentState p2 e6).
  rewrite (bind_Done GetState _ (set_currentState p2 e6) p2
             (set_currentState p2 e6) []) by done.
  rewrite (bind_Done _ _ _ _ _ _
             (Step_found (set_currentState p2 e6) 5%Z p3 callback2 (Hit2 p2))).
  change (set_currentState p3 (set_currentState p2 e6))
    with (set_currentState p3 e6).
  rewrite (bind_Done GetState _ (set_currentState p3 e6) p3
             (set_currentState p3 e6) []) by done.
  unfold myAssert. rewrite !decide_True by done.
  destruct (decide (p3 = p2)) as [-> | Hne].
  - rewrite (bind_Done _ _ _ _ _ _
               (Step_found (set_currentState p2 e6) 5%Z p2 callback2 (Hit2 p2))).
    change (set_currentState p2 (set_currentState p2 e6))
      with (set_currentState p2 e6).
    rewrite (bind_Done GetState _ (set_currentState p2 e6) p2
               (set_currentState p2 e6) []) by done.
    rewrite (bind_Done _ _ _ _ _ _
               (ResetMachine_valid (set_currentState p2 e6) p2 H2)).
    change (set_currentState p2 (set_currentState p2 e6))
      with (set_currentState p2 e6).
    rewrite (bind_Done GetState _ (set_currentState p2 e6) p2
               (set_currentState p2 e6) []) by done.
    unfold mret, M_ret. rewrite !decide_True by done.
    by eexists _, _.
  - assert (Step 5%Z (set_currentState p3 e6)
            = Done () (set_currentState p3 e6)
                [EvLock; EvCall fallback (set_currentState p3 e6); EvUnlock])
      as Hstep.
    { rewrite Step_not_found; [done |].
      change (sd (set_currentState p3 e6)) with (sd e6). rewrite Hsd. simpl.
      rewrite !lookup_insert_ne by congruence. apply lookup_empty. }
    rewrite (bind_Done _ _ _ _ _ _ Hstep).
    rewrite (bind_Done GetState _ (set_currentState p3 e6) p3
               (set_currentState p3 e6) []) by done.
    rewrite (bind_Done _ _ _ _ _ _
               (ResetMachine_valid (set_currentState p3 e6) p2 H2)).
    change (set_currentState p2 (set_currentState p3 e6))
      with (set_currentState p2 e6).
    rewrite (bind_Done GetState _ (set_currentState p2 e6) p2
               (set_currentState p2 e6) []) by done.
    unfold mret, M_ret. rewrite !decide_True by done.
    by eexists _, _.
Qed.

(** *** The further properties on the engines of the test cases *)

Lemma SetFallback_last_wins_witness :
  sd engine1 !! (currentState engine1, inp2) = None
  ∧ ∃ tr,
      (SetFallback callback1 ;; SetFallback callback2 ;; Step inp2) engine1
      = Done () (set_fallBackFunction callback2 engine1) tr
      ∧ calls tr = [callback2].
Proof.
  split; [vm_compute; reflexivity |].
  apply (SetFallback_last_wins engine1 callback1 callback2 inp2).
  vm_compute; reflexivity.
Defined.

Lemma run_ops_never_faults_witness :
  fallBackFunction engine3 = Some fallback
  ∧ ∃ e' tr fb',
      run_ops [ OpResetMachine s3; OpStep inp2;
                OpAddTransition s3 s1 inp3 callback1 ] engine3
      = Done () e' tr
      ∧ fallBackFunction e' = Some fb'.
Proof.
  split; [vm_compute; reflexivity |].
  apply (run_ops_never_faults
           [ OpResetMachine s3; OpStep inp2;
             OpAddTransition s3 s1 inp3 callback1 ] engine3 fallback).
  vm_compute; reflexivity.
Defined.

Lemma run_op_calls_witness :
  ∃ tr,
    run_op (OpStep inp1) engine1 = Done () (set_currentState s2 engine1) tr
    ∧ calls tr = called (OpStep inp1) engine1
    ∧ length (calls tr) ≤ 1.
Proof.
  eexists.
  refine (let Hrun := _ in
          conj Hrun (run_op_calls (OpStep inp1) engine1
                       (set_currentState s2 engine1) _ Hrun)).
  vm_compute. reflexivity.
Defined.

Lemma run_ops_mutex_discipline_witness :
  ∃ tr,
    run_ops setup3 (fsm_new "") = Done () engine3 tr
    ∧ mutex_discipline false tr = true.
Proof.
  eexists.
  refine (let Hrun := _ in
          conj Hrun (run_ops_mutex_discipline setup3 (fsm_new "")
                       engine3 _ Hrun)).
  vm_compute. reflexivity.
Defined.

Lemma AddTransition_fresh_key_witness :
  s3 ∈ listOfStates engine1
  ∧ s1 ∈ listOfStates engine1
  ∧ sd engine1 !! (s3, inp3) = None
  ∧ AddTransition s3 s1 inp3 callback1 engine1
    = Done () (set_sd (<[(s3, inp3) := (s1, callback1)]> (sd engine1)) engine1)
        [EvLock; EvUnlock]
  ∧ ∀ os e1 tr,
      run_ops os
        (set_sd (<[(s3, inp3) := (s1, callback1)]> (sd engine1)) engine1)
      = Done () e1 tr →
      currentState e1 = s3 →
      Step inp3 e1
      = Done () (set_currentState s1 e1)
          [EvLock; EvCall callback1 (set_currentState s1 e1); EvUnlock].
Proof.
  do 3 (split; [vm_compute; reflexivity |]).
  apply (AddTransition_fresh_key engine1 s3 s1 inp3 callback1);
    vm_compute; reflexivity.
Defined.

Lemma run_op_frame_witness :
  ∃ tr,
    run_op (OpStep inp1) engine1 = Done () (set_currentState s2 engine1) tr
    ∧ (listOfStates (set_currentState s2 engine1) ≠ listOfStates engine1 →
         ∃ s, @OpStep string ascii fn inp1 = OpAddState s ∧ s ∉ listOfStates engine1)
    ∧ (sd (set_currentState s2 engine1) ≠ sd engine1 →
         ∃ a b inp cb, @OpStep string ascii fn inp1 = OpAddTransition a b inp cb)
    ∧ (fallBackFunction (set_currentState s2 engine1)
       ≠ fallBackFunction engine1 →
         ∃ fb, @OpStep string ascii fn inp1 = OpSetFallback fb)
    ∧ (currentState (set_currentState s2 engine1) ≠ currentState engine1 →
         (∃ s, @OpStep string ascii fn inp1 = OpResetMachine s)
         ∨ (∃ inp, @OpStep string ascii fn inp1 = OpStep inp)).
Proof.
  eexists.
  refine (let Hrun := _ in
          conj Hrun (run_op_frame (OpStep inp1) engine1
                       (set_currentState s2 engine1) _ Hrun)).
  vm_compute. reflexivity.
Defined.

Lemma Steps_follow_table_witness :
  fallBackFunction engine1 = Some fallback
  ∧ walk engine1 (currentState engine1) [inp1; inp2; inp2] = s3
  ∧ ∃ tr,
      run_ops (OpStep <$> [inp1; inp2; inp2]) engine1
      = Done ()
          (set_currentState
             (walk engine1 (currentState engine1) [inp1; inp2; inp2]) engine1)
          tr
      ∧ calls tr
        = walk_calls engine1 fallback (currentState engine1)
            [inp1; inp2; inp2]
      ∧ length (calls tr) = length [inp1; inp2; inp2].
Proof.
  do 2 (split; [vm_compute; reflexivity |]).
  apply (Steps_follow_table [inp1; inp2; inp2] engine1 fallback).
  vm_compute; reflexivity.
Defined.

Lemma table_endpoints_registered_witness :
  ∃ tr,
    run_ops setup1 (fsm_new "") = Done () engine1 tr
    ∧ sd engine1 !! (s2, inp2) = Some (s3, callback2)
    ∧ s2 ∈ listOfStates engine1
    ∧ s3 ∈ listOfStates engine1.
Proof.
  eexists.
  do 2 (split; [vm_compute; reflexivity |]).
  eapply (table_endpoints_registered "" setup1 engine1 _
            s2 inp2 s3 callback2);
    vm_compute; reflexivity.
Defined.

Lemma AddTransition_commutes_witness :
  s3 ∈ listOfStates engine1
  ∧ s1 ∈ listOfStates engine1
  ∧ (s3, inp3) ≠ (s1, inp3)
  ∧ (AddTransition s3 s1 inp3 callback1 ;;
     AddTransition s1 s3 inp3 callback2) engine1
    = (AddTransition s1 s3 inp3 callback2 ;;
       AddTransition s3 s1 inp3 callback1) engine1.
Proof.
  assert (s3 ∈ listOfStates engine1) as H3 by (vm_compute; reflexivity).
  assert (s1 ∈ listOfStates engine1) as H1 by (vm_compute; reflexivity).
  assert ((s3, inp3) ≠ (s1, inp3)) as Hne by discriminate.
  do 3 (split; [assumption |]).
  exact (AddTransition_commutes engine1 s3 s1 inp3 callback1
           s1 s3 inp3 callback2 H3 H1 H1 H3 Hne).
Defined.


End test_programs.
